(** * Indico form-field bindings: error visibility, value adaptation,
      required-rule wiring, change notification, submit button and the
      file-type page bootstrap.

    The development follows [indico/react/forms/fields.jsx] (the adapter,
    the wrappers for each kind of input and the submit button), the
    file-type dialog of the editing module and its page bootstrap.  React components are embedded as functions from their props
    to a record of what they render; callbacks are embedded by explicit
    state passing. *)

From stdpp Require Import base strings gmap list.
From Stdlib Require Import ZArith Lia.

Local Open Scope Z_scope.
Local Open Scope string_scope.

(** ** JavaScript values that reach the bindings *)

(** The primitive values a message, a field value or an event argument can
    be.  Numbers are the integers (no NaN, no signed zero). *)
Inductive JsVal : Type :=
| JUndefined
| JNull
| JBool (b : bool)
| JNum (n : Z)
| JStr (s : string).

#[global] Instance JsVal_eq_dec : EqDecision JsVal.
Proof. solve_decision. Defined.

(** [ToBoolean]: what [if (v)], [!!v] and [v && ...] test. *)
Definition truthy (v : JsVal) : bool :=
  match v with
  | JUndefined | JNull => false
  | JBool b => b
  | JNum n => negb (Z.eqb n 0)
  | JStr s => negb (String.eqb s "")
  end.

(** [args[i]] of a rest parameter: a missing argument reads [undefined]. *)
Definition argument (i : nat) (args : list JsVal) : JsVal :=
  nth i args JUndefined.

(** ** The field adapter *)

Module Adapter.

(** [meta], the per-field state handed down by the form-state engine. *)
Record Meta : Type := {
  touched : bool;
  error : JsVal;
  submitError : JsVal;
  submitting : bool;
  dirty : bool;
  dirtySinceLastSubmit : bool;
  active : bool
}.

(** The props of [FormFieldAdapter] that its logic reads. *)
Record Props : Type := {
  required : bool;
  disabled : bool;
  hideValidationError : bool;
  hideErrorWhileActive : bool;
  meta : Meta
}.

(** [FormFieldAdapter.defaultProps] for the flags. *)
Definition defaultProps (m : Meta) : Props :=
  {| required := false; disabled := false;
     hideValidationError := false; hideErrorWhileActive := false;
     meta := m |}.

(** The condition of the first [if]:
    [touched && error && (dirty || required)]. *)
Definition localErrorEligible (p : Props) : bool :=
  touched (meta p) && truthy (error (meta p))
    && (dirty (meta p) || required p).

(** The condition of the [else if]:
    [submitError && !dirtySinceLastSubmit && !submitting]. *)
Definition submitErrorEligible (p : Props) : bool :=
  truthy (submitError (meta p)) && negb (dirtySinceLastSubmit (meta p))
    && negb (submitting (meta p)).

(** [errorMessage] after the [if]/[else if]; it starts as [null]. *)
Definition errorMessage (p : Props) : JsVal :=
  if localErrorEligible p then
    if negb (hideValidationError p) then error (meta p) else JNull
  else if submitErrorEligible p then submitError (meta p)
  else JNull.

(** Which assignment to [errorMessage] the same control flow executes. *)
Inductive Selection : Type := NoMessage | LocalError | SubmitError.

Definition selected (p : Props) : Selection :=
  if localErrorEligible p then
    if negb (hideValidationError p) then LocalError else NoMessage
  else if submitErrorEligible p then SubmitError
  else NoMessage.

(** [showErrorPopup = !!errorMessage && (!hideErrorWhileActive || !active)]. *)
Definition showErrorPopup (p : Props) : bool :=
  truthy (errorMessage p)
    && (negb (hideErrorWhileActive p) || negb (active (meta p))).

(** The [Popup] the adapter returns: [open={showErrorPopup}] around the
    message. *)
Record Rendered : Type := {
  popupOpen : bool;
  popupContent : JsVal
}.

Definition FormFieldAdapter (p : Props) : Rendered :=
  {| popupOpen := showErrorPopup p;
     popupContent := errorMessage p |}.

(** [handleChange]: the component's native change event, passed on to the
    engine's [input.onChange].  The notifier acts on the engine state. *)
Section HandleChange.
Context {FormState : Type}.
Variable input_onChange : list JsVal -> FormState -> FormState.

Definition handleChange (getValue : option (list JsVal -> JsVal))
      (args : list JsVal) : FormState -> FormState :=
    match getValue with
    | Some extract => input_onChange [extract args]
    | None => input_onChange args
    end.
End HandleChange.

(** A notifier that only records the argument lists it is called with. *)
Definition recordCall (args : list JsVal) (calls : list (list JsVal))
  : list (list JsVal) := (calls ++ [args])%list.

(** *** Field states used below *)

(** A required field, touched and left empty, never edited. *)
Definition untouched_required : Props :=
  {| required := true; disabled := false;
     hideValidationError := false; hideErrorWhileActive := false;
     meta := {| touched := true; error := JStr "This field is required.";
                submitError := JUndefined; submitting := false;
                dirty := false; dirtySinceLastSubmit := false;
                active := false |} |}.


(** A rejected field the user has started to edit again. *)
Definition edited_after_rejection : Props :=
  {| required := false; disabled := false;
     hideValidationError := false; hideErrorWhileActive := false;
     meta := {| touched := true; error := JUndefined;
                submitError := JStr "Name already in use";
                submitting := false;
                dirty := true; dirtySinceLastSubmit := true;
                active := true |} |}.


(** A field with both a local error and a rejected submission, validation
    errors hidden. *)
Definition both_errors_hidden : Props :=
  {| required := true; disabled := false;
     hideValidationError := true; hideErrorWhileActive := false;
     meta := {| touched := true; error := JStr "This field is required.";
                submitError := JStr "Name already in use";
                submitting := false;
                dirty := false; dirtySinceLastSubmit := false;
                active := false |} |}.

End Adapter.

(** *** More field states *)

Module AdapterSamples.
Import Adapter.

(** An edited field with a local error, while its form is submitting. *)
Definition invalid_submitting : Props :=
  {| required := false; disabled := false;
     hideValidationError := false; hideErrorWhileActive := false;
     meta := {| touched := true; error := JStr "Too long";
                submitError := JStr "Name already in use";
                submitting := true;
                dirty := true; dirtySinceLastSubmit := false;
                active := false |} |}.

(** A valid field the user has edited and left. *)
Definition valid_edited : Props :=
  {| required := true; disabled := false;
     hideValidationError := false; hideErrorWhileActive := false;
     meta := {| touched := true; error := JUndefined;
                submitError := JUndefined; submitting := false;
                dirty := true; dirtySinceLastSubmit := true;
                active := false |} |}.

End AdapterSamples.

(** ** The field wrapper *)

Module Wrapper.

(** How a call completes: with a value, or with a [TypeError]. *)
Inductive Outcome : Type :=
| Returned (v : JsVal)
| Threw.

(** A validation rule: [undefined] (or any falsy value) when the value
    passes, the error message when it fails. *)
Definition Validator : Type := JsVal -> Outcome.

(** What a prop of a component can hold. *)
Inductive PropV : Type :=
| PVal (v : JsVal)
| PFun (f : Validator)
| PElem (styleName : string) (child : PropV)
| PComponent (displayName : string).

(** Reading [obj.key]: a missing key reads [undefined]. *)
Definition prop (obj : gmap string PropV) (key : string) : PropV :=
  default (PVal JUndefined) (obj !! key).

(** [ToBoolean] on a prop: functions and elements are objects. *)
Definition truthyProp (x : PropV) : bool :=
  match x with
  | PVal v => truthy v
  | PFun _ | PElem _ _ | PComponent _ => true
  end.

(** Calling a prop as a rule; a prop that is no rule cannot be called as
    one. *)
Definition callRule (rule : PropV) (value : JsVal) : Outcome :=
  match rule with
  | PFun f => f value
  | PVal _ | PElem _ _ | PComponent _ => Threw
  end.

(** Modelled from the spec: [validators.chain] (the [validators] module is
    imported by [fields.jsx] but not part of the sources at hand).  The
    combined rule runs each rule in turn and returns the first failure; when
    every rule passes there is no error. *)
Fixpoint chain (rules : list PropV) (value : JsVal) : Outcome :=
  match rules with
  | [] => Returned JUndefined
  | rule :: others =>
      match callRule rule value with
      | Returned e => if truthy e then Returned e else chain others value
      | Threw => Threw
      end
  end.

(** The props of [FinalField]: the destructured ones and [...rest]. *)
Record Props : Type := {
  name : string;
  adapter : PropV;
  component : PropV;
  description : PropV;
  required : bool;
  rest : gmap string PropV
}.

Section FinalField.
(** [validators.required], the value-must-be-present rule of the missing
    [validators] module. *)
Variable validators_required : Validator.

(** [extraProps] after the [description] and [required] blocks. *)
Definition extraProps_initial (p : Props) : gmap string PropV :=
  let extraProps : gmap string PropV := ∅ in
  let extraProps :=
    if truthyProp (description p)
    then <["children" := PElem "field-description" (description p)]> extraProps
    else extraProps in
  if required p
  then <["required" := PVal (JBool true)]>
         (<["validate" := PFun validators_required]> extraProps)
  else extraProps.

(** The third block: when both [extraProps.validate] and [rest.validate]
    are truthy, chain them and delete the key from [rest].  Returns
    [(extraProps, rest)] as they stand before the render. *)
Definition merge_validate (extraProps rest : gmap string PropV)
  : gmap string PropV * gmap string PropV :=
  if truthyProp (prop extraProps "validate")
       && truthyProp (prop rest "validate")
  then (<["validate" :=
            PFun (chain [prop extraProps "validate"; prop rest "validate"])]>
          extraProps,
        delete "validate" rest)
  else (extraProps, rest).

(** The props of the rendered [Field]:
    [name], [component], [as], then [{...extraProps}], then [{...rest}];
    a later entry replaces an earlier one with the same key, whatever its
    value. *)
Definition FinalField (p : Props) : gmap string PropV :=
  let '(extraProps, rest) := merge_validate (extraProps_initial p) (rest p) in
  let explicit : gmap string PropV :=
    <["as" := component p]>
      (<["component" := adapter p]>
         (<["name" := PVal (JStr (name p))]> ∅)) in
  rest ∪ (extraProps ∪ explicit).

(** The rule the rendered [Field] validates with. *)
Definition fieldValidate (p : Props) : PropV :=
  prop (FinalField p) "validate".

End FinalField.

(** *** Change notification *)

Section ChangeNotification.
Context {Value Effects : Type}.
(** lodash's deep equality [_.isEqual]. *)
Variable isEqual : Value -> Value -> bool.
(** The test by which the [OnChange] listener (react-final-form-listeners)
    skips an update that carries the value it reported last. *)
Variable sameValue : Value -> Value -> bool.

(** The function [FinalField] hands to the listener:
    [(value, prev) => { if (!_.isEqual(value, prev)) onChange(value, prev) }]. *)
Definition notify (onChange : Value -> Value -> Effects -> Effects)
    (value prev : Value) (s : Effects) : Effects :=
  if negb (isEqual value prev) then onChange value prev s else s.

(** The listener: it remembers the value it saw last and calls its child
    with the new and the remembered value on each update that differs. *)
Fixpoint OnChange (children : Value -> Value -> Effects -> Effects)
    (previous : Value) (updates : list Value) (s : Effects) : Effects :=
  match updates with
  | [] => s
  | value :: later =>
      if negb (sameValue value previous)
      then OnChange children value later (children value previous s)
      else OnChange children previous later s
  end.

(** [{onChange && <OnChange name={name}>...</OnChange>}]: no callback, no
    listener. *)
Definition subscribe (onChange : option (Value -> Value -> Effects -> Effects))
    (initial : Value) (updates : list Value) (s : Effects) : Effects :=
  match onChange with
  | Some callback => OnChange (notify callback) initial updates s
  | None => s
  end.

(** The steps of a value stream: each new value with the one before it. *)
Fixpoint transitions (previous : Value) (updates : list Value)
  : list (Value * Value) :=
  match updates with
  | [] => []
  | value :: later => (value, previous) :: transitions value later
  end.

(** The steps at which the new value is not deeply equal to the previous
    one. *)
Definition changes (initial : Value) (updates : list Value)
  : list (Value * Value) :=
  filter (fun step => negb (isEqual step.1 step.2) = true)
         (transitions initial updates).

(** Invoking a callback once per listed step, in order. *)
Definition invokeAll (callback : Value -> Value -> Effects -> Effects)
    (steps : list (Value * Value)) (s : Effects) : Effects :=
  fold_left (fun acc step => callback step.1 step.2 acc) steps s.

End ChangeNotification.

(** On the primitive values of [JsVal], [===] and [_.isEqual] both are
    equality of values. *)
Definition primitiveEq (a b : JsVal) : bool := bool_decide (a = b).

(** A subscriber that logs the [(newValue, previousValue)] pairs it gets. *)
Definition logCall {Value : Type} (value prev : Value)
    (calls : list (Value * Value)) : list (Value * Value) :=
  (calls ++ [(value, prev)])%list.

(** A required wrapper whose caller passes the [validate] prop without a
    rule: [<FinalField name="title" required validate={undefined} />]. *)
Definition required_with_undefined_validate : Props :=
  {| name := "title";
     adapter := PComponent "FormFieldAdapter";
     component := PVal JUndefined;
     description := PVal JNull;
     required := true;
     rest := {[ "validate" := PVal JUndefined ]} |}.

End Wrapper.

(** ** The markup around the control *)

Module Markup.
Import Wrapper.

(** The props of the [Form.Field] the adapter renders: [required],
    [disabled], [error] and [defaultValue], then [{...fieldProps}], whose
    entries replace the earlier ones. *)
Definition FormField_props (p : Adapter.Props) (defaultValue : PropV)
    (fieldProps : gmap string PropV) : gmap string PropV :=
  fieldProps
  ∪ (<["defaultValue" := defaultValue]>
       (<["error" := PVal (JBool (truthy (Adapter.errorMessage p)))]>
          (<["disabled" :=
               PVal (JBool (Adapter.disabled p
                            || Adapter.submitting (Adapter.meta p)))]>
             (<["required" := PVal (JBool (Adapter.required p))]> ∅)))).

(** A prop of the wrapped control: one that is passed on, or the adapter's
    own [handleChange]. *)
Inductive Attr : Type :=
| Passed (v : PropV)
| HandleChange.

(** The props of the wrapped control: [{...input}], [{...props}], then
    [onChange], [label], [placeholder], [required] and [disabled], which
    replace whatever the two objects carry under these keys. *)
Definition Component_props (p : Adapter.Props)
    (input props : gmap string PropV) (componentLabel placeholder : PropV)
  : gmap string Attr :=
  <["disabled" :=
      Passed (PVal (JBool (Adapter.disabled p
                           || Adapter.submitting (Adapter.meta p))))]>
    (<["required" := Passed (PVal (JBool (Adapter.required p)))]>
       (<["placeholder" := Passed placeholder]>
          (<["label" := Passed componentLabel]>
             (<["onChange" := HandleChange]>
                (Passed <$> (props ∪ input)))))).

End Markup.

(** ** The specialised wrappers *)

Module Kinds.
Import Wrapper.

(** [x === undefined]. *)
Definition isUndefined (x : PropV) : bool :=
  match x with
  | PVal JUndefined => true
  | _ => false
  end.

(** React's [defaultProps]: a prop that is [undefined] takes its default. *)
Definition withDefault (dflt x : PropV) : PropV :=
  if isUndefined x then dflt else x.

(** [x === 'literal']. *)
Definition isString (literal : string) (x : PropV) : bool :=
  match x with
  | PVal (JStr s) => String.eqb s literal
  | _ => false
  end.

(** [{k1, ..., kn, ...rest} = obj]: [rest] is [obj] without the keys
    named. *)
Definition restWithout (keys : list string) (obj : gmap string PropV)
  : gmap string PropV :=
  foldr delete obj keys.

(** The [clearable] attribute [DropdownAdapter] computes from its props:
    [clearable === undefined ? !required : clearable], with
    [required] defaulting to [false]. *)
Definition DropdownAdapter_clearable (props : gmap string PropV) : PropV :=
  let required := withDefault (PVal (JBool false)) (prop props "required") in
  let clearable := prop props "clearable" in
  if isUndefined clearable
  then PVal (JBool (negb (truthyProp required)))
  else clearable.

(** The keys [FinalField] reads or writes itself. *)
Definition ownKeys : list string :=
  ["name"; "adapter"; "component"; "description"; "required"; "onChange";
   "validate"; "children"; "as"].

(** The [type] of a [FinalInput], ['text'] unless given. *)
Definition FinalInput_type (props : gmap string PropV) : PropV :=
  withDefault (PVal (JStr "text")) (prop props "type").

Section Wrappers.
Variable validators_required : Validator.
(** [parsers.number], [parsers.nullIfEmpty] and [formatters.trim], of the
    [parsers] and [formatters] modules that [fields.jsx] imports. *)
Variables parsers_number parsers_nullIfEmpty formatters_trim : PropV.

(** The props [FinalField] works on when rendered as
    [<FinalField name={name} {...given} />]: [FinalField.defaultProps]
    replace what is [undefined], and [...rest] is what the destructuring
    leaves. *)
Definition FinalField_props (name : string) (given : gmap string PropV)
  : Props :=
  {| name := name;
     adapter :=
       withDefault (PComponent "FormFieldAdapter") (prop given "adapter");
     component := prop given "component";
     description := withDefault (PVal JNull) (prop given "description");
     required :=
       truthyProp (withDefault (PVal (JBool false)) (prop given "required"));
     rest :=
       restWithout ["name"; "adapter"; "component"; "description";
                    "required"; "onChange"] given |}.

(** The props of the [Field] that such an element renders. *)
Definition FinalField_element (name : string) (given : gmap string PropV)
  : gmap string PropV :=
  FinalField validators_required (FinalField_props name given).

(** [extraProps] of [FinalInput], by [type], [nullIfEmpty] and
    [noAutoComplete] (defaults ['text'], [false], [false]). *)
Definition FinalInput_extraProps (props : gmap string PropV)
  : gmap string PropV :=
  let type := withDefault (PVal (JStr "text")) (prop props "type") in
  let nullIfEmpty :=
    withDefault (PVal (JBool false)) (prop props "nullIfEmpty") in
  let noAutoComplete :=
    withDefault (PVal (JBool false)) (prop props "noAutoComplete") in
  let extraProps : gmap string PropV := ∅ in
  let extraProps :=
    if isString "number" type
    then <["parse" := parsers_number]> extraProps
    else if isString "text" type || isString "email" type
    then
      let extraProps :=
        <["formatOnBlur" := PVal (JBool true)]>
          (<["format" := formatters_trim]> extraProps) in
      if truthyProp nullIfEmpty
      then <["parse" := parsers_nullIfEmpty]> extraProps
      else extraProps
    else extraProps in
  if truthyProp noAutoComplete
  then <["autoComplete" := PVal (JStr "off")]> extraProps
  else extraProps.

(** The attributes of the [<FinalField>] that [FinalInput] returns:
    [name], [label], [component={Input}], [type], then [{...extraProps}],
    then [{...rest}]. *)
Definition FinalInput_attrs (name : string) (props : gmap string PropV)
  : gmap string PropV :=
  let label := withDefault (PVal JNull) (prop props "label") in
  let type := withDefault (PVal (JStr "text")) (prop props "type") in
  let rest :=
    restWithout ["name"; "label"; "type"; "nullIfEmpty"; "noAutoComplete"]
                props in
  rest ∪ (FinalInput_extraProps props
          ∪ (<["type" := type]>
               (<["component" := PComponent "Input"]>
                  (<["label" := label]>
                     (<["name" := PVal (JStr name)]> ∅))))).

Definition FinalInput (name : string) (props : gmap string PropV)
  : gmap string PropV :=
  FinalField_element name (FinalInput_attrs name props).

(** [FinalTextArea]: [name], [label], [component={TextArea}], [format],
    [formatOnBlur], [parse], then [{...rest}]. *)
Definition FinalTextArea_attrs (name : string) (props : gmap string PropV)
  : gmap string PropV :=
  let label := withDefault (PVal JNull) (prop props "label") in
  let nullIfEmpty :=
    withDefault (PVal (JBool false)) (prop props "nullIfEmpty") in
  let rest := restWithout ["name"; "label"; "nullIfEmpty"] props in
  rest ∪ (<["parse" := if truthyProp nullIfEmpty
                        then parsers_nullIfEmpty else PVal JNull]>
            (<["formatOnBlur" := PVal (JBool true)]>
               (<["format" := formatters_trim]>
                  (<["component" := PComponent "TextArea"]>
                     (<["label" := label]>
                        (<["name" := PVal (JStr name)]> ∅)))))).

Definition FinalTextArea (name : string) (props : gmap string PropV)
  : gmap string PropV :=
  FinalField_element name (FinalTextArea_attrs name props).

(** [FinalCheckbox] and [FinalRadio]: [name], [adapter], [type],
    [componentLabel={label}], then [{...rest}]. *)
Definition toggle_attrs (adapterName type name : string)
    (props : gmap string PropV) : gmap string PropV :=
  let label := prop props "label" in
  let rest := restWithout ["name"; "label"] props in
  rest ∪ (<["componentLabel" := label]>
            (<["type" := PVal (JStr type)]>
               (<["adapter" := PComponent adapterName]>
                  (<["name" := PVal (JStr name)]> ∅)))).

Definition FinalCheckbox (name : string) (props : gmap string PropV)
  : gmap string PropV :=
  FinalField_element name (toggle_attrs "CheckboxAdapter" "checkbox" name props).

Definition FinalRadio (name : string) (props : gmap string PropV)
  : gmap string PropV :=
  FinalField_element name (toggle_attrs "RadioAdapter" "radio" name props).

(** [FinalDropdown]: [name], [adapter={DropdownAdapter}], [label],
    [parse={null}], then [{...rest}]. *)
Definition FinalDropdown_attrs (name : string) (props : gmap string PropV)
  : gmap string PropV :=
  let label := withDefault (PVal JNull) (prop props "label") in
  let rest := restWithout ["name"; "label"] props in
  rest ∪ (<["parse" := PVal JNull]>
            (<["label" := label]>
               (<["adapter" := PComponent "DropdownAdapter"]>
                  (<["name" := PVal (JStr name)]> ∅)))).

Definition FinalDropdown (name : string) (props : gmap string PropV)
  : gmap string PropV :=
  FinalField_element name (FinalDropdown_attrs name props).

End Wrappers.

(** *** Wrappers to run the definitions on *)

(** Stand-ins for the rules of the [validators], [parsers] and
    [formatters] modules. *)
Definition sample_required : Validator :=
  fun value =>
    if truthy value then Returned JUndefined
    else Returned (JStr "This field is required.").
Definition sample_number : PropV := PComponent "parsers.number".
Definition sample_nullIfEmpty : PropV := PComponent "parsers.nullIfEmpty".
Definition sample_trim : PropV := PComponent "formatters.trim".

(** [<FinalField name="title" placeholder="Title" />]. *)
Definition titled_field : Props :=
  {| name := "title";
     adapter := PComponent "FormFieldAdapter";
     component := PVal JUndefined;
     description := PVal JNull;
     required := false;
     rest := {[ "placeholder" := PVal (JStr "Title") ]} |}.

(** The props of [<FinalInput type="number" nullIfEmpty />]. *)
Definition number_props : gmap string PropV :=
  <["type" := PVal (JStr "number")]>
    (<["nullIfEmpty" := PVal (JBool true)]> ∅).

(** The props of [<FinalInput type="password" nullIfEmpty />]. *)
Definition password_props : gmap string PropV :=
  <["type" := PVal (JStr "password")]>
    (<["nullIfEmpty" := PVal (JBool true)]> ∅).

(** The props of [<FinalInput required />] and the like. *)
Definition required_props : gmap string PropV :=
  <["required" := PVal (JBool true)]> ∅.

End Kinds.

(** ** The submit button *)

Module SubmitButton.

(** The three signals of the [FormSpy] subscription. *)
Record FormState : Type := {
  hasValidationErrors : bool;
  pristine : bool;
  submitting : bool
}.

(** The props of the rendered [Form.Button]. *)
Record Button : Type := {
  type : string;
  form : option string;
  disabled : bool;
  loading : bool;
  primary : bool;
  content : string
}.

Definition FinalSubmitButton (label : string) (form : option string)
    (st : FormState) : Button :=
  {| type := "submit";
     form := form;
     disabled := hasValidationErrors st || pristine st || submitting st;
     loading := submitting st;
     primary := true;
     content := label |}.

End SubmitButton.

(** ** The file-type dialog *)

Module FileTypes.
Import Wrapper.

(** What [FileTypeModal] renders, as far as it depends on the form. *)
Record Modal : Type := {
  closeIcon : bool;
  closeOnDimmerClick : bool;
  open : bool;
  header : string;
  formId : string;
  nameField : gmap string PropV;
  submitButton : SubmitButton.Button;
  cancelDisabled : bool
}.

Section FileTypeModal.
(** [Translate.string]. *)
Variable translate : string -> string.
Variable validators_required : Validator.
Variables parsers_number parsers_nullIfEmpty formatters_trim : PropV.

(** The dialog at a state of its form; [fprops.submitting] and the submit
    button's signal are the same [submitting] of that form. *)
Definition FileTypeModal (st : SubmitButton.FormState) : Modal :=
  let submitting := SubmitButton.submitting st in
  {| closeIcon := negb submitting;
     closeOnDimmerClick := negb submitting;
     open := true;
     header := translate "Add new file type";
     formId := "file-type-form";
     nameField :=
       Kinds.FinalInput validators_required
         parsers_number parsers_nullIfEmpty formatters_trim "name"
         (<["label" := PVal (JStr (translate "Name"))]>
            (<["required" := PVal (JBool true)]> ∅));
     submitButton :=
       SubmitButton.FinalSubmitButton (translate "Submit")
         (Some "file-type-form") st;
     cancelDisabled := submitting |}.

End FileTypeModal.

End FileTypes.

(** ** The page bootstrap of the file-type interface *)

Module Bootstrap.

(** An element of the page, as far as the handler looks at it. *)
Record Element : Type := {
  dataset : gmap string string
}.

(** The page: the element each selector finds, if any. *)
Definition Document : Type := gmap string Element.

(** [document.querySelector]: [None] is [null]. *)
Definition querySelector (document : Document) (selector : string)
  : option Element := document !! selector.

(** The statements of the handler, in the order of the source text;
    [Num] is the type of what [parseInt] returns. *)
Inductive Step (Num : Type) : Type :=
| LocateElement
| ReadEventId
| NullGuard
| Mount (eventId : Num) (container : Element).
Arguments LocateElement {Num}.
Arguments ReadEventId {Num}.
Arguments NullGuard {Num}.
Arguments Mount {Num} eventId container.

(** How a statement completes. *)
Inductive Completion (A : Type) : Type :=
| Normal (a : A)
| Return (v : JsVal)
| Throw (exn : string).
Arguments Normal {A} a.
Arguments Return {A} v.
Arguments Throw {A} exn.

(** How the promise of the [async] handler settles. *)
Inductive Settled : Type :=
| Fulfilled (v : JsVal)
| Rejected (exn : string).

Section Handler.
Context {Num : Type}.
(** [x => parseInt(x, 10)] of the platform, on the attribute read ([None]
    is [undefined]). *)
Variable parseInt : option string -> Num.

(** Statements run in sequence on the log of executed steps; a [return] or
    a [throw] skips what follows. *)
Definition Exec (A : Type) : Type :=
  list (Step Num) -> Completion A * list (Step Num).

Definition ret {A : Type} (a : A) : Exec A := fun log => (Normal a, log).

Definition bind {A B : Type} (m : Exec A) (k : A -> Exec B) : Exec B :=
  fun log =>
    match m log with
    | (Normal a, log') => k a log'
    | (Return v, log') => (Return v, log')
    | (Throw exn, log') => (Throw exn, log')
    end.

Definition step (s : Step Num) : Exec unit :=
  fun log => (Normal tt, (log ++ [s])%list).
Definition returnWith {A : Type} (v : JsVal) : Exec A :=
  fun log => (Return v, log).
Definition throw {A : Type} (exn : string) : Exec A :=
  fun log => (Throw exn, log).

Notation "'const' x ':=' m ';' k" := (bind m (fun x => k))
  (at level 10, x name, m at level 99, k at level 200, only parsing).
Notation "'exec' m ';' k" := (bind m (fun _ => k))
  (at level 10, m at level 99, k at level 200, only parsing).

(** [element.dataset.eventId]: reading a property of [null] throws. *)
Definition readEventId (element : option Element) : Exec (option string) :=
  exec step ReadEventId;
  match element with
  | Some el => ret (dataset el !! "eventId")
  | None => throw "TypeError"
  end.

(** The body of the [DOMContentLoaded] handler. *)
Definition handlerBody (document : Document) : Exec unit :=
  exec step LocateElement;
  let fileTypeInterface := querySelector document "#editing-filetypes" in
  const raw := readEventId fileTypeInterface;
  let eventId := parseInt raw in
  exec step NullGuard;
  match fileTypeInterface with
  | None => returnWith JNull
  | Some container => step (Mount eventId container)
  end.

(** Running the handler on a page: the promise and the executed steps. *)
Definition handler (document : Document) : Settled * list (Step Num) :=
  match handlerBody document [] with
  | (Normal _, log) => (Fulfilled JUndefined, log)
  | (Return v, log) => (Fulfilled v, log)
  | (Throw exn, log) => (Rejected exn, log)
  end.

(** Whether the null guard was executed. *)
Definition guardExecuted (log : list (Step Num)) : bool :=
  existsb (fun s => match s with NullGuard => true | _ => false end) log.

End Handler.

End Bootstrap.

(** * Properties *)

(** ** Error visibility and value adaptation *)

Module AdapterFacts.
Import Adapter.

(** The message is the one the selected assignment stored. *)
Lemma errorMessage_selected (p : Props) :
  errorMessage p =
    match selected p with
    | NoMessage => JNull
    | LocalError => error (meta p)
    | SubmitError => submitError (meta p)
    end.
Proof.
  unfold errorMessage, selected.
  destruct (localErrorEligible p).
  - destruct (negb (hideValidationError p)); reflexivity.
  - destruct (submitErrorEligible p); reflexivity.
Qed.

Lemma localErrorEligible_true (p : Props) :
  localErrorEligible p = true <->
  touched (meta p) = true /\ truthy (error (meta p)) = true
  /\ (dirty (meta p) = true \/ required p = true).
Proof.
  unfold localErrorEligible.
  rewrite !andb_true_iff, orb_true_iff. tauto.
Qed.

Lemma submitErrorEligible_true (p : Props) :
  submitErrorEligible p = true <->
  truthy (submitError (meta p)) = true
  /\ dirtySinceLastSubmit (meta p) = false
  /\ submitting (meta p) = false.
Proof.
  unfold submitErrorEligible.
  rewrite !andb_true_iff, !negb_true_iff. tauto.
Qed.

(** A selected message is never an empty one: both branches test the
    message they store. *)
Lemma selected_truthy (p : Props) :
  selected p <> NoMessage <-> truthy (errorMessage p) = true.
Proof.
  unfold selected, errorMessage.
  destruct (localErrorEligible p) eqn:E1.
  - apply localErrorEligible_true in E1 as (_ & Herr & _).
    destruct (negb (hideValidationError p)); cbn.
    + split; [intros _; exact Herr | discriminate].
    + split; [congruence | discriminate].
  - destruct (submitErrorEligible p) eqn:E2.
    + apply submitErrorEligible_true in E2 as (Hs & _).
      split; [intros _; exact Hs | discriminate].
    + cbn. split; [congruence | discriminate].
Qed.

(** C1: in every state with [touched], a local [error] present, [dirty] or
    [required], and [hideValidationError] unset, the adapter selects the
    local error as the active message. *)
Theorem local_error_is_active (p : Props) :
  touched (meta p) = true ->
  truthy (error (meta p)) = true ->
  dirty (meta p) = true \/ required p = true ->
  hideValidationError p = false ->
  selected p = LocalError /\ errorMessage p = error (meta p).
Proof.
  intros Ht He Hd Hh.
  assert (El : localErrorEligible p = true)
    by (apply localErrorEligible_true; auto).
  unfold selected, errorMessage. rewrite El, Hh. cbn. auto.
Qed.

Lemma local_error_is_active_witness :
  selected untouched_required = LocalError
  /\ errorMessage untouched_required = JStr "This field is required.".
Proof.
  apply (local_error_is_active untouched_required);
    [reflexivity | reflexivity | right; reflexivity | reflexivity].
Defined.




(** C3: the submit error is the active message exactly when [submitError]
    is set, [dirtySinceLastSubmit] and [submitting] are false and the
    condition of the first branch is false.  Under these conditions the
    message is the submit error; in every other state it is the local
    error (first branch, not hidden) or [null]; so, the two errors being
    different values, a message that is the submit error tells that the
    conditions hold.  Once the field was edited after the failed
    submission the message is never taken from the submit error, and a
    popup that opens shows the local error. *)
Theorem submit_error_is_active_iff (p : Props) :
  (truthy (submitError (meta p)) = true
   /\ dirtySinceLastSubmit (meta p) = false
   /\ submitting (meta p) = false
   /\ ~ (touched (meta p) = true /\ truthy (error (meta p)) = true
         /\ (dirty (meta p) = true \/ required p = true)) ->
   errorMessage p = submitError (meta p))
  /\ (~ (truthy (submitError (meta p)) = true
         /\ dirtySinceLastSubmit (meta p) = false
         /\ submitting (meta p) = false
         /\ ~ (touched (meta p) = true /\ truthy (error (meta p)) = true
               /\ (dirty (meta p) = true \/ required p = true))) ->
      (touched (meta p) = true /\ truthy (error (meta p)) = true
       /\ (dirty (meta p) = true \/ required p = true)
       /\ hideValidationError p = false
       /\ errorMessage p = error (meta p))
      \/ (~ (touched (meta p) = true /\ truthy (error (meta p)) = true
             /\ (dirty (meta p) = true \/ required p = true)
             /\ hideValidationError p = false)
          /\ errorMessage p = JNull))
  /\ (error (meta p) <> submitError (meta p) ->
      (errorMessage p = submitError (meta p)
       /\ truthy (errorMessage p) = true
       <->
       truthy (submitError (meta p)) = true
       /\ dirtySinceLastSubmit (meta p) = false
       /\ submitting (meta p) = false
       /\ ~ (touched (meta p) = true /\ truthy (error (meta p)) = true
             /\ (dirty (meta p) = true \/ required p = true))))
  /\ (dirtySinceLastSubmit (meta p) = true ->
      (errorMessage p = JNull
       \/ (touched (meta p) = true /\ truthy (error (meta p)) = true
           /\ (dirty (meta p) = true \/ required p = true)
           /\ errorMessage p = error (meta p)))
      /\ (popupOpen (FormFieldAdapter p) = true ->
          popupContent (FormFieldAdapter p) = error (meta p))).
Proof.
  destruct p as [req dis hve hewa [tou err serr sub dir dsl act]].
  cbn. unfold showErrorPopup, errorMessage, localErrorEligible,
    submitErrorEligible. cbn.
  destruct tou, dir, req, hve, dsl, sub, hewa, act,
    (truthy err) eqn:He, (truthy serr) eqn:Hs;
    cbn; rewrite ?He, ?Hs; cbn;
    repeat split; intros; intuition (congruence || discriminate).
Qed.

Lemma submit_error_is_active_iff_witness :
  (errorMessage edited_after_rejection = JNull
   \/ (touched (meta edited_after_rejection) = true
       /\ truthy (error (meta edited_after_rejection)) = true
       /\ (dirty (meta edited_after_rejection) = true
           \/ required edited_after_rejection = true)
       /\ errorMessage edited_after_rejection
          = error (meta edited_after_rejection)))
  /\ (popupOpen (FormFieldAdapter edited_after_rejection) = true ->
      popupContent (FormFieldAdapter edited_after_rejection)
      = error (meta edited_after_rejection)).
Proof.
  apply (proj2 (proj2 (proj2
           (submit_error_is_active_iff edited_after_rejection)))).
  reflexivity.
Defined.



(** C9: one message at most is active, and the two branches exclude each
    other: while the condition of the first branch holds the submit error
    is never selected, and if [hideValidationError] then suppresses the
    local error no message is shown at all. *)
Theorem branches_exclusive (p : Props) :
  (selected p = LocalError -> localErrorEligible p = true)
  /\ (selected p = SubmitError -> localErrorEligible p = false)
  /\ (localErrorEligible p = true ->
      selected p <> SubmitError
      /\ (hideValidationError p = false -> errorMessage p = error (meta p))
      /\ (hideValidationError p = true ->
          selected p = NoMessage /\ errorMessage p = JNull
          /\ popupOpen (FormFieldAdapter p) = false)).
Proof.
  cbn. unfold showErrorPopup, errorMessage, selected.
  destruct (localErrorEligible p).
  - destruct (hideValidationError p); cbn;
      repeat split; intros; auto; discriminate.
  - destruct (submitErrorEligible p);
      repeat split; intros; auto; discriminate.
Qed.

Lemma branches_exclusive_witness :
  selected both_errors_hidden = NoMessage
  /\ errorMessage both_errors_hidden = JNull
  /\ popupOpen (FormFieldAdapter both_errors_hidden) = false.
Proof.
  apply (proj2 (proj2 (proj2 (branches_exclusive both_errors_hidden))
                 eq_refl));
    reflexivity.
Defined.

(** C8: on a change event the adapter calls the engine's notifier with
    [getValue] applied to the event's arguments when [getValue] was
    supplied, and with the event's own arguments, so its first argument
    unchanged, when it was not. *)
Theorem handleChange_forwards
    (FormState : Type) (input_onChange : list JsVal -> FormState -> FormState)
    (args : list JsVal) (s : FormState) :
  (forall getValue : list JsVal -> JsVal,
     handleChange input_onChange (Some getValue) args s
     = input_onChange [getValue args] s)
  /\ handleChange input_onChange None args s = input_onChange args s
  /\ (forall getValue : list JsVal -> JsVal,
        handleChange recordCall (Some getValue) args [] = [[getValue args]])
  /\ (exists forwarded,
        handleChange recordCall None args [] = [forwarded]
        /\ argument 0 forwarded = argument 0 args).
Proof.
  repeat split.
  exists args. split; reflexivity.
Qed.

End AdapterFacts.

(** ** Required rule and change notification *)

Module WrapperFacts.
Import Wrapper.

Section RequiredRule.
Variable validators_required : Validator.
Local Abbreviation FinalField := (FinalField validators_required).
Local Abbreviation fieldValidate := (fieldValidate validators_required).
Local Abbreviation extraProps_initial :=
  (extraProps_initial validators_required).

Lemma extraProps_initial_validate (p : Props) :
  extraProps_initial p !! "validate" =
    if required p then Some (PFun validators_required) else None.
Proof.
  unfold Wrapper.extraProps_initial.
  destruct (required p).
  - rewrite lookup_insert_ne by discriminate. apply lookup_insert_eq.
  - destruct (truthyProp (description p)).
    + rewrite lookup_insert_ne by discriminate. apply lookup_empty.
    + apply lookup_empty.
Qed.

(** The [validate] prop of the rendered [Field], by the three ways the
    caller can have left [rest.validate]. *)
Lemma fieldValidate_cases (p : Props) :
  fieldValidate p =
    match rest p !! "validate" with
    | None =>
        if required p then PFun validators_required else PVal JUndefined
    | Some given =>
        if required p && truthyProp given
        then PFun (chain [PFun validators_required; given])
        else given
    end.
Proof.
  unfold Wrapper.fieldValidate, Wrapper.FinalField, merge_validate.
  unfold prop at 2 3. rewrite extraProps_initial_validate.
  destruct (rest p !! "validate") as [given |] eqn:Hrest;
    destruct (required p) eqn:Hreq; cbn.
  - destruct (truthyProp given) eqn:Hgiven; cbn.
    + unfold prop. rewrite Hrest, extraProps_initial_validate, Hreq. cbn.
      rewrite lookup_union_r by apply lookup_delete_eq.
      rewrite (lookup_union_Some_l _ _ _ _ (lookup_insert_eq _ _ _)).
      reflexivity.
    + unfold prop.
      rewrite (lookup_union_Some_l _ _ _ _ Hrest). reflexivity.
  - unfold prop.
    rewrite (lookup_union_Some_l _ _ _ _ Hrest). reflexivity.
  - unfold prop. rewrite lookup_union_r by exact Hrest.
    erewrite lookup_union_Some_l; [reflexivity |].
    rewrite extraProps_initial_validate, Hreq. reflexivity.
  - unfold prop. rewrite lookup_union_r by exact Hrest.
    rewrite lookup_union_r
      by (rewrite extraProps_initial_validate, Hreq; reflexivity).
    rewrite !lookup_insert_ne by discriminate. reflexivity.
Qed.

(** Required, no [validate] prop passed: the required rule is the rule. *)
Lemma required_rule_attached (p : Props) :
  required p = true -> rest p !! "validate" = None ->
  fieldValidate p = PFun validators_required.
Proof. intros Hr Hn. rewrite fieldValidate_cases, Hn, Hr. reflexivity. Qed.

(** Required, with a rule of the caller: the two are chained, the required
    rule first. *)
Lemma required_rule_chained (p : Props) (custom : PropV) :
  required p = true -> rest p !! "validate" = Some custom ->
  truthyProp custom = true ->
  fieldValidate p = PFun (chain [PFun validators_required; custom]).
Proof.
  intros Hr Hc Ht. rewrite fieldValidate_cases, Hc, Hr, Ht. reflexivity.
Qed.

(** A [validate] prop that is passed but falsy reaches the [Field] as it
    is, required or not. *)
Lemma falsy_validate_passed_on (p : Props) (given : PropV) :
  rest p !! "validate" = Some given -> truthyProp given = false ->
  fieldValidate p = given.
Proof.
  intros Hc Ht. rewrite fieldValidate_cases, Hc, Ht, andb_false_r.
  reflexivity.
Qed.

End RequiredRule.

(** The combined rule reports the failure of the first rule that fails. *)
Lemma chain_first_failure (rule : PropV) (others : list PropV)
    (value e : JsVal) :
  callRule rule value = Returned e -> truthy e = true ->
  chain (rule :: others) value = Returned e.
Proof. intros Hc Ht. cbn. rewrite Hc, Ht. reflexivity. Qed.

(** A rule that passes hands over to the rules after it. *)
Lemma chain_pass (rule : PropV) (others : list PropV) (value e : JsVal) :
  callRule rule value = Returned e -> truthy e = false ->
  chain (rule :: others) value = chain others value.
Proof. intros Hc Ht. cbn. rewrite Hc, Ht. reflexivity. Qed.

(** A rule that always fails, chained with one that always passes, in
    either order: the combined rule reports the failure of the first. *)
Lemma chain_fail_pass (A B : Validator) :
  (forall value, exists e, A value = Returned e /\ truthy e = true) ->
  (forall value, exists e, B value = Returned e /\ truthy e = false) ->
  forall value,
    chain [PFun A; PFun B] value = A value
    /\ chain [PFun B; PFun A] value = A value.
Proof.
  intros HA HB value.
  destruct (HA value) as (ea & Ha & Hta).
  destruct (HB value) as (eb & Hb & Htb).
  split.
  - rewrite Ha. apply chain_first_failure; assumption.
  - rewrite (chain_pass (PFun B) _ value eb) by assumption.
    rewrite Ha. apply chain_first_failure; assumption.
Qed.

(** Two rules that pass: the combined rule passes. *)
Lemma chain_pass_pass (A B : PropV) (value ea eb : JsVal) :
  callRule A value = Returned ea -> truthy ea = false ->
  callRule B value = Returned eb -> truthy eb = false ->
  chain [A; B] value = Returned JUndefined.
Proof.
  intros. rewrite (chain_pass A _ value ea), (chain_pass B _ value eb);
    auto.
Qed.

(** C5: a wrapper marked required attaches the value-must-be-present rule.
    At a wrapper that is required and is passed [validate={undefined}] the
    rendered [Field] is marked required and yet has no rule to validate
    with: the required rule set on [extraProps] is replaced by the entry
    of [rest]. *)
Theorem required_rule_lost_on_undefined_validate
    (validators_required : Validator) :
  extraProps_initial validators_required required_with_undefined_validate
    !! "validate" = Some (PFun validators_required)
  /\ fieldValidate validators_required required_with_undefined_validate
     = PVal JUndefined
  /\ FinalField validators_required required_with_undefined_validate
       !! "required" = Some (PVal (JBool true)).
Proof.
  split; [| split].
  - apply (extraProps_initial_validate _ required_with_undefined_validate).
  - apply falsy_validate_passed_on; reflexivity.
  - reflexivity.
Qed.

Section ChangeNotificationFacts.
Context {Value Effects : Type}.
Variable isEqual : Value -> Value -> bool.
Variable sameValue : Value -> Value -> bool.
(** The listener skips an update only for the value it already holds. *)
Hypothesis sameValue_eq : forall a b, sameValue a b = true -> a = b.
(** A value is deeply equal to itself. *)
Hypothesis isEqual_refl : forall a, isEqual a a = true.
Variable callback : Value -> Value -> Effects -> Effects.

Lemma invokeAll_cons (step : Value * Value) (steps : list (Value * Value))
    (s : Effects) :
  invokeAll callback (step :: steps) s
  = invokeAll callback steps (callback step.1 step.2 s).
Proof. reflexivity. Qed.

(** The listener with [notify] as its child calls the callback on the
    steps whose values are not deeply equal, whatever it remembers. *)
Lemma OnChange_notify (updates : list Value) :
  forall (previous : Value) (s : Effects),
    OnChange sameValue (notify isEqual callback) previous updates s
    = invokeAll callback (changes isEqual previous updates) s.
Proof.
  unfold changes.
  induction updates as [| value later IH]; intros previous s.
  - reflexivity.
  - cbn [OnChange transitions]. rewrite filter_cons. cbn [fst snd].
    destruct (sameValue value previous) eqn:Hsame; cbn.
    + apply sameValue_eq in Hsame. subst previous.
      rewrite isEqual_refl. cbn.
      rewrite decide_False by discriminate. apply IH.
    + rewrite IH. unfold notify.
      destruct (isEqual value previous); cbn.
      * rewrite decide_False by discriminate. reflexivity.
      * rewrite decide_True by reflexivity. reflexivity.
Qed.

End ChangeNotificationFacts.

(** The steps the callback is invoked at are steps of the stream, new value
    first, and none of them joins deeply equal values. *)
Lemma changes_sound {Value : Type} (isEqual : Value -> Value -> bool)
    (initial : Value) (updates : list Value) (value prev : Value) :
  (value, prev) ∈ changes isEqual initial updates <->
  (value, prev) ∈ transitions initial updates /\ isEqual value prev = false.
Proof.
  unfold changes. rewrite list_elem_of_filter. cbn.
  rewrite negb_true_iff. tauto.
Qed.

(** The logging subscriber ends up with the steps it was invoked at. *)
Lemma invokeAll_logCall {Value : Type} (steps done : list (Value * Value)) :
  invokeAll logCall steps done = (done ++ steps)%list.
Proof.
  revert done. induction steps as [| [value prev] steps IH]; intros done.
  - cbn. rewrite app_nil_r. reflexivity.
  - rewrite invokeAll_cons, IH. unfold logCall. cbn.
    rewrite <- app_assoc. reflexivity.
Qed.

(** C6: for every stream of field values the caller's [onChange] is invoked
    exactly at the steps whose new value is not deeply equal to the
    previous one, in order and with [(newValue, previousValue)]; on the
    stream 1, 1, 2, 2, 3 that is twice, for 1 to 2 and for 2 to 3. *)
Theorem onChange_invoked_on_changes
    (Value Effects : Type) (isEqual sameValue : Value -> Value -> bool)
    (sameValue_eq : forall a b, sameValue a b = true -> a = b)
    (isEqual_refl : forall a, isEqual a a = true) :
  (forall (onChange : Value -> Value -> Effects -> Effects)
          (initial : Value) (updates : list Value) (s : Effects),
      subscribe isEqual sameValue (Some onChange) initial updates s
      = invokeAll onChange (changes isEqual initial updates) s)
  /\ (forall (initial : Value) (updates : list Value),
        subscribe isEqual sameValue (Some logCall) initial updates []
        = changes isEqual initial updates)
  /\ subscribe primitiveEq primitiveEq (Some logCall)
       (JNum 1) [JNum 1; JNum 2; JNum 2; JNum 3] []
     = [(JNum 2, JNum 1); (JNum 3, JNum 2)].
Proof.
  split; [| split].
  - intros onChange initial updates s. cbn.
    apply OnChange_notify; assumption.
  - intros initial updates. cbn.
    rewrite (OnChange_notify isEqual sameValue sameValue_eq isEqual_refl).
    apply invokeAll_logCall.
  - vm_compute. reflexivity.
Qed.

Lemma primitiveEq_eq (a b : JsVal) : primitiveEq a b = true -> a = b.
Proof. unfold primitiveEq. intros H. apply bool_decide_eq_true in H. exact H. Qed.

Lemma primitiveEq_refl (a : JsVal) : primitiveEq a a = true.
Proof. unfold primitiveEq. apply bool_decide_eq_true. reflexivity. Qed.

Lemma onChange_invoked_on_changes_witness :
  subscribe primitiveEq primitiveEq (Some logCall)
    (JStr "draft") [JStr "draft"; JStr "final"; JStr "final"] []
  = changes primitiveEq
      (JStr "draft") [JStr "draft"; JStr "final"; JStr "final"].
Proof.
  apply (proj1 (proj2
           (onChange_invoked_on_changes JsVal (list (JsVal * JsVal))
              primitiveEq primitiveEq primitiveEq_eq primitiveEq_refl))).
Defined.

End WrapperFacts.

(** ** Submit button *)

Module SubmitButtonFacts.
Import SubmitButton.

(** C7: the button is disabled exactly when the form has validation
    errors, is pristine or is submitting, enabled exactly when none of the
    three holds, and shows the loading indicator exactly while
    submitting. *)
Theorem submit_button_state (label : string) (form : option string)
    (st : FormState) :
  let button := FinalSubmitButton label form st in
  (disabled button = true <->
     hasValidationErrors st = true \/ pristine st = true
     \/ submitting st = true)
  /\ (disabled button = false <->
      hasValidationErrors st = false /\ pristine st = false
      /\ submitting st = false)
  /\ (loading button = true <-> submitting st = true).
Proof.
  cbn. rewrite !orb_true_iff, !orb_false_iff. tauto.
Qed.

End SubmitButtonFacts.

(** ** Page bootstrap *)

Module BootstrapFacts.
Import Bootstrap.

Section Handler.
Context {Num : Type}.
Variable parseInt : option string -> Num.
Local Abbreviation handler := (handler parseInt).

(** With the element on the page the handler runs all four statements, the
    read of the data attribute before the guard, and mounts the
    interface. *)
Lemma handler_element_present (document : Document) (element : Element) :
  querySelector document "#editing-filetypes" = Some element ->
  handler document =
    (Fulfilled JUndefined,
     [LocateElement; ReadEventId; NullGuard;
      Mount (parseInt (dataset element !! "eventId")) element]).
Proof.
  intros Hq. unfold Bootstrap.handler, handlerBody, readEventId.
  rewrite Hq. reflexivity.
Qed.

(** In every run the guard comes after the read, if it comes at all. *)
Lemma handler_read_before_guard (document : Document) :
  exists later,
    (handler document).2 = LocateElement :: ReadEventId :: later.
Proof.
  destruct (querySelector document "#editing-filetypes") as [el |] eqn:Hq.
  - rewrite (handler_element_present _ _ Hq). eexists. reflexivity.
  - unfold Bootstrap.handler, handlerBody, readEventId. rewrite Hq.
    eexists. reflexivity.
Qed.

(** C10: the handler reads the data attribute of the located element before
    it tests the element; with no ['#editing-filetypes'] on the page the
    read throws, the guard is never executed and the handler fails instead
    of returning. *)
Theorem handler_element_absent (document : Document) :
  (exists later,
     (handler document).2 = LocateElement :: ReadEventId :: later)
  /\ (querySelector document "#editing-filetypes" = None ->
      handler document
      = (Rejected "TypeError", [LocateElement; ReadEventId])
      /\ guardExecuted (handler document).2 = false
      /\ (forall v, (handler document).1 <> Fulfilled v)).
Proof.
  split; [apply handler_read_before_guard |].
  intros Hq.
  assert (Hrun : handler document
                 = (Rejected "TypeError", [LocateElement; ReadEventId])).
  { unfold Bootstrap.handler, handlerBody, readEventId. rewrite Hq.
    reflexivity. }
  rewrite Hrun. repeat split. intros v. discriminate.
Qed.

End Handler.

(** The handler on the empty page, the event id kept as the text read. *)
Lemma handler_element_absent_witness :
  handler (fun raw : option string => raw) ∅
  = (Rejected "TypeError", [LocateElement; ReadEventId])
  /\ guardExecuted (handler (fun raw : option string => raw) ∅).2 = false
  /\ (forall v,
        (handler (fun raw : option string => raw) ∅).1 <> Fulfilled v).
Proof.
  apply (proj2 (handler_element_absent (fun raw : option string => raw) ∅)).
  reflexivity.
Defined.

End BootstrapFacts.

(** ** What the wrapper hands to the field *)

Module FinalFieldFacts.
Import Wrapper.

Section Merge.
Variable validators_required : Validator.
Local Abbreviation FinalField := (FinalField validators_required).
Local Abbreviation extraProps_initial :=
  (extraProps_initial validators_required).

(** Away from [validate], the rendered props are the three layers as the
    caller and the first two blocks left them. *)
Lemma FinalField_lookup_ne (p : Props) (key : string) :
  key <> "validate" ->
  FinalField p !! key =
    (rest p ∪ (extraProps_initial p
               ∪ (<["as" := component p]>
                    (<["component" := adapter p]>
                       (<["name" := PVal (JStr (name p))]> ∅))))) !! key.
Proof.
  intros Hne. unfold Wrapper.FinalField, merge_validate.
  destruct (truthyProp (prop (extraProps_initial p) "validate")
            && truthyProp (prop (rest p) "validate")).
  - rewrite !lookup_union, lookup_delete_ne, lookup_insert_ne by done.
    reflexivity.
  - reflexivity.
Qed.

Lemma extraProps_initial_lookup (p : Props) (key : string) :
  extraProps_initial p !! key =
    if decide (key = "required") then
      if required p then Some (PVal (JBool true)) else None
    else if decide (key = "validate") then
      if required p then Some (PFun validators_required) else None
    else if decide (key = "children") then
      if truthyProp (description p)
      then Some (PElem "field-description" (description p)) else None
    else None.
Proof.
  unfold Wrapper.extraProps_initial.
  destruct (required p), (truthyProp (description p));
    repeat case_decide; subst; simplify_map_eq; reflexivity.
Qed.

Lemma extraProps_validate_truthy (p : Props) :
  truthyProp (prop (extraProps_initial p) "validate") = required p.
Proof.
  unfold prop. rewrite extraProps_initial_lookup.
  repeat case_decide; try done. destruct (required p); reflexivity.
Qed.

(** X6: a prop of the caller that [FinalField] does not destructure reaches
    the [Field] with the caller's value, ahead of anything the wrapper
    sets; the one exception is a truthy [validate] on a required field,
    which is chained instead. *)
Theorem caller_prop_reaches_field (p : Props) (key : string) (v : PropV) :
  rest p !! key = Some v ->
  (key = "validate" -> required p && truthyProp v = false) ->
  FinalField p !! key = Some v.
Proof.
  intros Hrest Hval.
  destruct (decide (key = "validate")) as [-> | Hne].
  - unfold Wrapper.FinalField, merge_validate.
    rewrite extraProps_validate_truthy. unfold prop at 1.
    rewrite Hrest. cbn. rewrite (Hval eq_refl).
    apply lookup_union_Some_l. exact Hrest.
  - rewrite FinalField_lookup_ne by exact Hne.
    apply lookup_union_Some_l. exact Hrest.
Qed.

(** X7: the [children] of the [Field] are the caller's [children] when
    there are any, else the description paragraph when the description
    is truthy, else none. *)
Theorem field_children (p : Props) :
  FinalField p !! "children" =
    match rest p !! "children" with
    | Some given => Some given
    | None =>
        if truthyProp (description p)
        then Some (PElem "field-description" (description p))
        else None
    end.
Proof.
  rewrite FinalField_lookup_ne by discriminate.
  rewrite !lookup_union, extraProps_initial_lookup.
  repeat case_decide; try done.
  rewrite !lookup_insert_ne, lookup_empty by discriminate.
  destruct (rest p !! "children"), (truthyProp (description p));
    reflexivity.
Qed.

(** X8: on a field that is not required the wrapper adds no rule and no
    [required] mark: both entries are what the caller passed, if
    anything. *)
Theorem not_required_adds_nothing (p : Props) :
  required p = false ->
  FinalField p !! "validate" = rest p !! "validate"
  /\ FinalField p !! "required" = rest p !! "required".
Proof.
  intros Hreq. split.
  - unfold Wrapper.FinalField, merge_validate.
    rewrite extraProps_validate_truthy, Hreq. cbn.
    rewrite !lookup_union, extraProps_initial_lookup, Hreq.
    repeat case_decide; try done.
    rewrite !lookup_insert_ne, lookup_empty by discriminate.
    destruct (rest p !! "validate"); reflexivity.
  - rewrite FinalField_lookup_ne by discriminate.
    rewrite !lookup_union, extraProps_initial_lookup, Hreq.
    repeat case_decide; try done.
    rewrite !lookup_insert_ne, lookup_empty by discriminate.
    destruct (rest p !! "required"); reflexivity.
Qed.

(** X9: the keys of the rendered [Field] are the caller's keys, [name],
    [component] and [as], and [children], [validate] and [required] when
    the first two blocks set them; no key of the caller is lost. *)
Theorem field_keys (p : Props) :
  dom (FinalField p) =
    dom (rest p) ∪ dom (extraProps_initial p)
    ∪ {[ "name"; "component"; "as" ]}.
Proof.
  apply set_eq. intros key.
  rewrite !elem_of_union, !elem_of_dom.
  destruct (decide (key = "validate")) as [-> | Hne].
  - unfold Wrapper.FinalField, merge_validate.
    rewrite extraProps_validate_truthy.
    pose proof (extraProps_initial_lookup p "validate") as Hext.
    repeat case_decide; try done.
    destruct (required p) eqn:Hreq; cbn.
    + destruct (truthyProp (prop (rest p) "validate")).
      * rewrite lookup_union, lookup_delete_eq, lookup_union,
          lookup_insert_eq. cbn. rewrite Hext.
        split; [intros _; left; right; eauto | intros _; eauto].
      * rewrite !lookup_union, Hext.
        destruct (rest p !! "validate"); cbn;
          (split; [intros _ | intros _; eauto]);
          [left; left; eauto | left; right; eauto].
    + rewrite !lookup_union, Hext.
      rewrite !lookup_insert_ne, lookup_empty by discriminate.
      destruct (rest p !! "validate"); cbn.
      * split; [intros _; left; left; eauto | intros _; eauto].
      * split; [intros [? [=]] |].
        intros [[[? [=]] | [? [=]]] | Hin].
        rewrite !elem_of_singleton in Hin.
        destruct Hin as [[[=] | [=]] | [=]].
  - rewrite FinalField_lookup_ne by exact Hne.
    rewrite <- !elem_of_dom, !dom_union, !dom_insert, dom_empty.
    rewrite !elem_of_union, elem_of_empty. tauto.
Qed.

End Merge.

Lemma caller_prop_reaches_field_witness :
  FinalField Kinds.sample_required Kinds.titled_field !! "placeholder"
  = Some (PVal (JStr "Title")).
Proof.
  apply (caller_prop_reaches_field Kinds.sample_required
           Kinds.titled_field "placeholder" (PVal (JStr "Title")));
    [reflexivity | discriminate].
Defined.

Lemma not_required_adds_nothing_witness :
  FinalField Kinds.sample_required Kinds.titled_field !! "validate"
  = rest Kinds.titled_field !! "validate"
  /\ FinalField Kinds.sample_required Kinds.titled_field !! "required"
     = rest Kinds.titled_field !! "required".
Proof.
  apply (not_required_adds_nothing Kinds.sample_required
           Kinds.titled_field).
  reflexivity.
Defined.

End FinalFieldFacts.

(** ** The specialised wrappers *)

Module KindsFacts.
Import Wrapper Kinds.

Lemma lookup_restWithout (keys : list string) (obj : gmap string PropV)
    (key : string) :
  restWithout keys obj !! key =
    if decide (key ∈ keys) then None else obj !! key.
Proof.
  unfold restWithout. induction keys as [| k keys IH]; cbn.
  - rewrite decide_False by apply not_elem_of_nil. reflexivity.
  - destruct (decide (k = key)) as [-> | Hne].
    + rewrite lookup_delete_eq, decide_True by apply list_elem_of_here.
      reflexivity.
    + rewrite lookup_delete_ne by exact Hne. rewrite IH.
      destruct (decide (key ∈ keys)) as [Hin | Hout].
      * rewrite decide_True by (apply list_elem_of_further; exact Hin).
        reflexivity.
      * rewrite decide_False; [reflexivity |].
        intros Hin. apply elem_of_cons in Hin as [-> | Hin]; done.
Qed.

Lemma truthy_withDefault_false (x : PropV) :
  truthyProp (withDefault (PVal (JBool false)) x) = truthyProp x.
Proof. destruct x as [[] | | |]; reflexivity. Qed.

(** Settle the tests on literal keys. *)
Ltac decide_keys :=
  repeat match goal with
    | |- context [decide (?k ∈ ?l)] =>
        first
          [ rewrite (decide_True (P := k ∈ l))
              by (rewrite !elem_of_cons; auto 10)
          | rewrite (decide_False (P := k ∈ l))
              by (rewrite !not_elem_of_cons; repeat split; try done;
                  apply not_elem_of_nil) ]
    | |- context [decide (?a = ?b)] =>
        first
          [ rewrite (decide_True (P := a = b)) by done
          | rewrite (decide_False (P := a = b)) by done ]
    end.

Section Wrappers.
Variable validators_required : Validator.
Variables parsers_number parsers_nullIfEmpty formatters_trim : PropV.
Local Abbreviation FinalField_element :=
  (FinalField_element validators_required).
Local Abbreviation FinalInput :=
  (FinalInput validators_required
     parsers_number parsers_nullIfEmpty formatters_trim).
Local Abbreviation FinalTextArea :=
  (FinalTextArea validators_required parsers_nullIfEmpty formatters_trim).
Local Abbreviation FinalCheckbox := (FinalCheckbox validators_required).
Local Abbreviation FinalRadio := (FinalRadio validators_required).
Local Abbreviation FinalDropdown := (FinalDropdown validators_required).

(** Any other key goes from the element to the [Field] untouched. *)
Lemma FinalField_element_other (name key : string)
    (given : gmap string PropV) :
  key ∉ ownKeys ->
  FinalField_element name given !! key = given !! key.
Proof.
  intros Hout. unfold ownKeys in Hout.
  rewrite !not_elem_of_cons in Hout.
  destruct Hout as (? & ? & ? & ? & ? & ? & ? & ? & ? & _).
  unfold Kinds.FinalField_element.
  rewrite FinalFieldFacts.FinalField_lookup_ne by done.
  rewrite !lookup_union, FinalFieldFacts.extraProps_initial_lookup.
  unfold FinalField_props. cbn [rest]. rewrite lookup_restWithout.
  rewrite decide_False
    by (rewrite !not_elem_of_cons; repeat split; try done;
        apply not_elem_of_nil).
  repeat case_decide; try done.
  rewrite !lookup_insert_ne, lookup_empty by done.
  destruct (given !! key); reflexivity.
Qed.

(** The keys [FinalField] treats itself, as they reach the [Field]. *)
Lemma FinalField_element_own (name : string) (given : gmap string PropV) :
  let field := FinalField_element name given in
  field !! "name" = Some (PVal (JStr name))
  /\ field !! "component"
     = Some (withDefault (PComponent "FormFieldAdapter")
                         (prop given "adapter"))
  /\ field !! "as" = Some (default (prop given "component") (given !! "as"))
  /\ field !! "required"
     = (if truthyProp (prop given "required")
        then Some (PVal (JBool true)) else None)
  /\ field !! "adapter" = None
  /\ field !! "description" = None
  /\ field !! "onChange" = None.
Proof.
  cbn zeta. unfold Kinds.FinalField_element.
  rewrite !FinalFieldFacts.FinalField_lookup_ne by done.
  rewrite !lookup_union, !FinalFieldFacts.extraProps_initial_lookup.
  unfold FinalField_props.
  cbn [rest required Wrapper.name adapter component description].
  rewrite !lookup_restWithout, truthy_withDefault_false.
  decide_keys. rewrite !lookup_insert, ?lookup_empty. decide_keys.
  repeat split.
  - destruct (given !! "as"); reflexivity.
  - destruct (truthyProp (prop given "required")); reflexivity.
Qed.


Ltac other_key :=
  unfold ownKeys; rewrite !not_elem_of_cons; repeat split; try done;
  apply not_elem_of_nil.

(** What [FinalInput] sets for [parse], [format] and [formatOnBlur], read
    at one key. *)
Lemma FinalInput_extraProps_lookup (props : gmap string PropV)
    (key : string) :
  key <> "autoComplete" ->
  FinalInput_extraProps parsers_number parsers_nullIfEmpty formatters_trim
    props !! key =
    if isString "number" (FinalInput_type props) then
      if decide (key = "parse") then Some parsers_number else None
    else if isString "text" (FinalInput_type props)
            || isString "email" (FinalInput_type props) then
      if decide (key = "parse") then
        if truthyProp (prop props "nullIfEmpty")
        then Some parsers_nullIfEmpty else None
      else if decide (key = "formatOnBlur") then Some (PVal (JBool true))
      else if decide (key = "format") then Some formatters_trim
      else None
    else None.
Proof.
  intros Hne. unfold FinalInput_extraProps. fold (FinalInput_type props).
  rewrite !truthy_withDefault_false.
  destruct (isString "number" (FinalInput_type props));
    [| destruct (isString "text" (FinalInput_type props)
                 || isString "email" (FinalInput_type props));
       [destruct (truthyProp (prop props "nullIfEmpty")) |]];
    destruct (truthyProp (prop props "noAutoComplete"));
    rewrite ?lookup_insert, ?lookup_empty;
    repeat case_decide; subst; try done.
Qed.

(** A key that neither wrapper treats itself. *)
Lemma FinalInput_lookup (name key : string) (props : gmap string PropV) :
  key ∉ ownKeys ->
  key ∉ ["label"; "type"; "nullIfEmpty"; "noAutoComplete";
         "autoComplete"] ->
  FinalInput name props !! key =
    match props !! key with
    | Some given => Some given
    | None =>
        FinalInput_extraProps parsers_number parsers_nullIfEmpty
          formatters_trim props !! key
    end.
Proof.
  intros Hown Hin. unfold Kinds.FinalInput.
  rewrite FinalField_element_other by exact Hown.
  unfold ownKeys in Hown. rewrite !not_elem_of_cons in Hown, Hin.
  destruct Hown as (? & ? & ? & _), Hin as (? & ? & ? & ? & ? & _).
  unfold FinalInput_attrs.
  rewrite !lookup_union, lookup_restWithout.
  rewrite decide_False
    by (rewrite !not_elem_of_cons; repeat split; try done;
        apply not_elem_of_nil).
  rewrite !lookup_insert, lookup_empty.
  repeat case_decide; subst; try done.
  destruct (props !! key),
    (FinalInput_extraProps _ _ _ props !! key); reflexivity.
Qed.

(** X11: a [FinalInput] of type ['number'] parses with [parsers.number]
    unless the caller passes [parse]; the wrapper sets neither [format]
    nor [formatOnBlur], and [nullIfEmpty] has no effect on it. *)
Theorem number_input (name : string) (props : gmap string PropV) :
  isString "number" (FinalInput_type props) = true ->
  FinalInput name props !! "parse"
  = Some (default parsers_number (props !! "parse"))
  /\ FinalInput name props !! "format" = props !! "format"
  /\ FinalInput name props !! "formatOnBlur" = props !! "formatOnBlur".
Proof.
  intros Hty.
  rewrite !FinalInput_lookup by other_key.
  rewrite !FinalInput_extraProps_lookup, Hty by done.
  decide_keys.
  destruct (props !! "parse"), (props !! "format"),
    (props !! "formatOnBlur"); auto.
Qed.

(** X12: a [FinalInput] of type ['text'] or ['email'] (['text'] is the
    default) is trimmed on blur, and parses with [parsers.nullIfEmpty]
    exactly when [nullIfEmpty] is set; a prop of the caller under the
    same key comes first. *)
Theorem text_input (name : string) (props : gmap string PropV) :
  isString "text" (FinalInput_type props)
  || isString "email" (FinalInput_type props) = true ->
  FinalInput name props !! "format"
  = Some (default formatters_trim (props !! "format"))
  /\ FinalInput name props !! "formatOnBlur"
     = Some (default (PVal (JBool true)) (props !! "formatOnBlur"))
  /\ FinalInput name props !! "parse"
     = match props !! "parse" with
       | Some given => Some given
       | None =>
           if truthyProp (prop props "nullIfEmpty")
           then Some parsers_nullIfEmpty else None
       end.
Proof.
  intros Hty.
  assert (Hnum : isString "number" (FinalInput_type props) = false).
  { destruct (FinalInput_type props) as [[| | | |s] | | |]; try done.
    cbn in *. apply orb_true_iff in Hty as [H | H];
      apply String.eqb_eq in H; subst; reflexivity. }
  rewrite !FinalInput_lookup by other_key.
  rewrite !FinalInput_extraProps_lookup, Hty, Hnum by done.
  decide_keys.
  destruct (props !! "parse"), (props !! "format"),
    (props !! "formatOnBlur"); auto.
Qed.

(** X13: for any other [type] the wrapper attaches no parser and no
    formatter, [nullIfEmpty] or not. *)
Theorem other_input (name : string) (props : gmap string PropV) :
  isString "number" (FinalInput_type props) = false ->
  isString "text" (FinalInput_type props) = false ->
  isString "email" (FinalInput_type props) = false ->
  FinalInput name props !! "parse" = props !! "parse"
  /\ FinalInput name props !! "format" = props !! "format"
  /\ FinalInput name props !! "formatOnBlur" = props !! "formatOnBlur".
Proof.
  intros Hnum Htext Hemail.
  rewrite !FinalInput_lookup by other_key.
  rewrite !FinalInput_extraProps_lookup, Hnum, Htext, Hemail by done.
  cbn.
  destruct (props !! "parse"), (props !! "format"),
    (props !! "formatOnBlur"); auto.
Qed.

Lemma FinalInput_extraProps_autoComplete (props : gmap string PropV) :
  FinalInput_extraProps parsers_number parsers_nullIfEmpty formatters_trim
    props !! "autoComplete" =
    if truthyProp (prop props "noAutoComplete")
    then Some (PVal (JStr "off")) else None.
Proof.
  unfold FinalInput_extraProps. rewrite !truthy_withDefault_false.
  destruct (truthyProp (prop props "noAutoComplete")).
  - apply lookup_insert_eq.
  - repeat match goal with
           | |- context [if ?c then _ else _] => destruct c
           end;
      rewrite ?lookup_insert, ?lookup_empty; decide_keys; reflexivity.
Qed.

(** X14: the [Field] of a [FinalInput] carries its [label] and [type]
    (defaults [null] and ['text']), has [autoComplete] off when
    [noAutoComplete] is set and the caller passes no [autoComplete], and
    never sees the flags [nullIfEmpty] and [noAutoComplete]
    themselves. *)
Theorem input_attributes (name : string) (props : gmap string PropV) :
  FinalInput name props !! "label"
  = Some (withDefault (PVal JNull) (prop props "label"))
  /\ FinalInput name props !! "type" = Some (FinalInput_type props)
  /\ FinalInput name props !! "autoComplete"
     = match props !! "autoComplete" with
       | Some given => Some given
       | None =>
           if truthyProp (prop props "noAutoComplete")
           then Some (PVal (JStr "off")) else None
       end
  /\ FinalInput name props !! "nullIfEmpty" = None
  /\ FinalInput name props !! "noAutoComplete" = None.
Proof.
  unfold Kinds.FinalInput.
  rewrite !FinalField_element_other by other_key.
  unfold FinalInput_attrs.
  rewrite !lookup_union, !lookup_restWithout.
  rewrite FinalInput_extraProps_autoComplete.
  rewrite !FinalInput_extraProps_lookup by done.
  rewrite !lookup_insert, ?lookup_empty. decide_keys.
  fold (FinalInput_type props).
  repeat match goal with
         | |- context [if ?c then _ else _] => destruct c
         end;
    destruct (props !! "autoComplete"); auto.
Qed.

(** The rule of the [Field] an element renders, by what the element
    carries. *)
Lemma FinalField_element_validate (name : string)
    (given : gmap string PropV) :
  truthyProp (prop given "required") = true ->
  given !! "validate" = None ->
  prop (FinalField_element name given) "validate"
  = PFun validators_required.
Proof.
  intros Hreq Hval.
  change (prop (FinalField_element name given) "validate")
    with (fieldValidate validators_required (FinalField_props name given)).
  apply WrapperFacts.required_rule_attached.
  - unfold FinalField_props. cbn [required].
    rewrite truthy_withDefault_false. exact Hreq.
  - unfold FinalField_props. cbn [rest].
    rewrite lookup_restWithout. decide_keys. exact Hval.
Qed.

(** X15: a [FinalInput] with a truthy [required] prop and no [validate]
    prop renders a [Field] that validates with [validators.required] and
    is marked [required] with [true]. *)
Theorem required_input (name : string) (props : gmap string PropV) :
  truthyProp (prop props "required") = true ->
  props !! "validate" = None ->
  prop (FinalInput name props) "validate" = PFun validators_required
  /\ FinalInput name props !! "required" = Some (PVal (JBool true)).
Proof.
  intros Hreq Hval.
  assert (Hgiven : forall key,
             key ∈ ["required"; "validate"] ->
             FinalInput_attrs parsers_number parsers_nullIfEmpty
               formatters_trim name props !! key = props !! key).
  { intros key Hkey. unfold FinalInput_attrs.
    rewrite !lookup_union, lookup_restWithout.
    assert (Hne : key <> "autoComplete")
      by (intros ->; rewrite !elem_of_cons, elem_of_nil in Hkey;
          intuition discriminate).
    rewrite FinalInput_extraProps_lookup by exact Hne.
    rewrite !elem_of_cons, elem_of_nil in Hkey.
    destruct Hkey as [-> | [-> | []]];
      rewrite !lookup_insert, ?lookup_empty; decide_keys;
      repeat match goal with
             | |- context [if ?c then _ else _] => destruct c
             end;
      match goal with
      | |- context [props !! ?k] => destruct (props !! k)
      end; reflexivity. }
  unfold Kinds.FinalInput. split.
  - apply FinalField_element_validate.
    + unfold prop. rewrite Hgiven by (rewrite !elem_of_cons; auto).
      exact Hreq.
    + rewrite Hgiven by (rewrite !elem_of_cons; auto). exact Hval.
  - destruct (FinalField_element_own name
                (FinalInput_attrs parsers_number parsers_nullIfEmpty
                   formatters_trim name props))
      as (_ & _ & _ & Hr & _).
    cbn zeta in Hr. rewrite Hr. unfold prop.
    rewrite Hgiven by (rewrite !elem_of_cons; auto).
    fold (prop props "required"). rewrite Hreq. reflexivity.
Qed.

(** X16: a [FinalTextArea] is trimmed on blur and always carries a
    [parse] prop, [parsers.nullIfEmpty] when [nullIfEmpty] is set and
    [null] otherwise; a prop of the caller under the same key comes
    first, and the flag itself is not passed on. *)
Theorem textarea_attributes (name : string) (props : gmap string PropV) :
  FinalTextArea name props !! "format"
  = Some (default formatters_trim (props !! "format"))
  /\ FinalTextArea name props !! "formatOnBlur"
     = Some (default (PVal (JBool true)) (props !! "formatOnBlur"))
  /\ FinalTextArea name props !! "parse"
     = Some (default (if truthyProp (prop props "nullIfEmpty")
                      then parsers_nullIfEmpty else PVal JNull)
                     (props !! "parse"))
  /\ FinalTextArea name props !! "nullIfEmpty" = None.
Proof.
  unfold Kinds.FinalTextArea.
  rewrite !FinalField_element_other by other_key.
  unfold FinalTextArea_attrs.
  rewrite !lookup_union, !lookup_restWithout, truthy_withDefault_false.
  rewrite !lookup_insert, ?lookup_empty. decide_keys.
  destruct (props !! "parse"), (props !! "format"),
    (props !! "formatOnBlur"); auto.
Qed.

(** X17: a [FinalCheckbox] or [FinalRadio] hands its [label] to the
    control as [componentLabel]; no [label] prop reaches the [Field], so
    no label is put above the control.  The [type] is ['checkbox'] or
    ['radio'] unless the caller passes one. *)
Theorem toggle_attributes (name : string) (props : gmap string PropV) :
  (FinalCheckbox name props !! "label" = None
   /\ FinalCheckbox name props !! "componentLabel"
      = Some (default (prop props "label") (props !! "componentLabel"))
   /\ FinalCheckbox name props !! "type"
      = Some (default (PVal (JStr "checkbox")) (props !! "type")))
  /\ (FinalRadio name props !! "label" = None
      /\ FinalRadio name props !! "componentLabel"
         = Some (default (prop props "label") (props !! "componentLabel"))
      /\ FinalRadio name props !! "type"
         = Some (default (PVal (JStr "radio")) (props !! "type"))).
Proof.
  unfold Kinds.FinalCheckbox, Kinds.FinalRadio.
  rewrite !FinalField_element_other by other_key.
  unfold toggle_attrs.
  rewrite !lookup_union, !lookup_restWithout.
  rewrite !lookup_insert, ?lookup_empty. decide_keys.
  destruct (props !! "componentLabel"), (props !! "type"); auto.
Qed.

(** X18: for a [FinalDropdown] whose caller passes no [clearable] (or
    [undefined]) the dropdown is clearable exactly when the field is not
    required; a [clearable] the caller passes is used as it is.  The
    [Field] always carries [parse], [null] unless the caller passes
    one. *)
Theorem dropdown_clearable (name : string) (props : gmap string PropV) :
  DropdownAdapter_clearable (FinalDropdown name props)
  = (if isUndefined (prop props "clearable")
     then PVal (JBool (negb (truthyProp (prop props "required"))))
     else prop props "clearable")
  /\ FinalDropdown name props !! "parse"
     = Some (default (PVal JNull) (props !! "parse")).
Proof.
  assert (Hgiven : forall key,
             key ∈ ["required"; "clearable"; "parse"] ->
             FinalDropdown_attrs name props !! key =
               if decide (key = "parse")
               then Some (default (PVal JNull) (props !! "parse"))
               else props !! key).
  { intros key Hkey. unfold FinalDropdown_attrs.
    rewrite !lookup_union, lookup_restWithout.
    rewrite !elem_of_cons, elem_of_nil in Hkey.
    destruct Hkey as [-> | [-> | [-> | []]]];
      rewrite !lookup_insert, ?lookup_empty; decide_keys;
      match goal with
      | |- context [props !! ?k] => destruct (props !! k)
      end; reflexivity. }
  unfold Kinds.FinalDropdown. split.
  - destruct (FinalField_element_own name (FinalDropdown_attrs name props))
      as (_ & _ & _ & Hr & _).
    cbn zeta in Hr. unfold prop at 1 in Hr.
    rewrite Hgiven in Hr by (rewrite !elem_of_cons; auto).
    revert Hr. decide_keys. fold (prop props "required"). intros Hr.
    assert (Hc : prop (FinalField_element name
                         (FinalDropdown_attrs name props)) "clearable"
                 = prop props "clearable").
    { unfold prop. rewrite FinalField_element_other by other_key.
      rewrite Hgiven by (rewrite !elem_of_cons; auto). decide_keys.
      reflexivity. }
    assert (Hq : prop (FinalField_element name
                         (FinalDropdown_attrs name props)) "required"
                 = if truthyProp (prop props "required")
                   then PVal (JBool true) else PVal JUndefined).
    { unfold prop at 1. rewrite Hr.
      destruct (truthyProp (prop props "required")); reflexivity. }
    unfold DropdownAdapter_clearable. rewrite Hc, Hq.
    destruct (truthyProp (prop props "required")); reflexivity.
  - rewrite FinalField_element_other by other_key.
    rewrite Hgiven by (rewrite !elem_of_cons; auto). decide_keys.
    reflexivity.
Qed.

End Wrappers.

Lemma number_input_witness :
  FinalInput sample_required sample_number sample_nullIfEmpty sample_trim
    "count" number_props !! "parse"
  = Some (default sample_number (number_props !! "parse"))
  /\ FinalInput sample_required sample_number sample_nullIfEmpty
       sample_trim "count" number_props !! "format"
     = number_props !! "format"
  /\ FinalInput sample_required sample_number sample_nullIfEmpty
       sample_trim "count" number_props !! "formatOnBlur"
     = number_props !! "formatOnBlur".
Proof.
  apply (number_input sample_required sample_number sample_nullIfEmpty
           sample_trim "count" number_props).
  reflexivity.
Defined.

Lemma text_input_witness :
  FinalInput sample_required sample_number sample_nullIfEmpty sample_trim
    "title" required_props !! "format"
  = Some (default sample_trim (required_props !! "format"))
  /\ FinalInput sample_required sample_number sample_nullIfEmpty
       sample_trim "title" required_props !! "formatOnBlur"
     = Some (default (PVal (JBool true)) (required_props !! "formatOnBlur"))
  /\ FinalInput sample_required sample_number sample_nullIfEmpty
       sample_trim "title" required_props !! "parse"
     = match required_props !! "parse" with
       | Some given => Some given
       | None =>
           if truthyProp (prop required_props "nullIfEmpty")
           then Some sample_nullIfEmpty else None
       end.
Proof.
  apply (text_input sample_required sample_number sample_nullIfEmpty
           sample_trim "title" required_props).
  reflexivity.
Defined.

Lemma other_input_witness :
  FinalInput sample_required sample_number sample_nullIfEmpty sample_trim
    "secret" password_props !! "parse" = password_props !! "parse"
  /\ FinalInput sample_required sample_number sample_nullIfEmpty
       sample_trim "secret" password_props !! "format"
     = password_props !! "format"
  /\ FinalInput sample_required sample_number sample_nullIfEmpty
       sample_trim "secret" password_props !! "formatOnBlur"
     = password_props !! "formatOnBlur".
Proof.
  apply (other_input sample_required sample_number sample_nullIfEmpty
           sample_trim "secret" password_props);
    reflexivity.
Defined.

Lemma required_input_witness :
  prop (FinalInput sample_required sample_number sample_nullIfEmpty
          sample_trim "title" required_props) "validate"
  = PFun sample_required
  /\ FinalInput sample_required sample_number sample_nullIfEmpty
       sample_trim "title" required_props !! "required"
     = Some (PVal (JBool true)).
Proof.
  apply (required_input sample_required sample_number sample_nullIfEmpty
           sample_trim "title" required_props);
    reflexivity.
Defined.

End KindsFacts.

(** ** More on the adapter *)

Module AdapterMore.
Import Wrapper Markup Adapter.

(** X1: the two errors being different values, the active message is the
    local error exactly when the field was touched, has an error, is
    dirty or required, and validation errors are not hidden. *)
Theorem local_error_selected_iff (p : Props) :
  error (meta p) <> submitError (meta p) ->
  (errorMessage p = error (meta p) /\ truthy (errorMessage p) = true
   <->
   touched (meta p) = true /\ truthy (error (meta p)) = true
   /\ (dirty (meta p) = true \/ required p = true)
   /\ hideValidationError p = false).
Proof.
  destruct p as [req dis hve hewa [tou err serr sub dir dsl act]].
  cbn. unfold errorMessage, localErrorEligible, submitErrorEligible. cbn.
  intros Hdiff.
  destruct tou, dir, req, hve, dsl, sub,
    (truthy err) eqn:He, (truthy serr) eqn:Hs;
    cbn; rewrite ?He, ?Hs; cbn;
    intuition (congruence || discriminate).
Qed.

(** X2: the message is [null] or a truthy value, never an empty one; the
    popup only opens around a truthy message; and the [Form.Field] is
    flagged with [error={!!errorMessage}] unless [fieldProps] carries an
    [error] of its own, which comes first. *)
Theorem error_flag_agrees (p : Props) :
  (errorMessage p = JNull \/ truthy (errorMessage p) = true)
  /\ (popupOpen (FormFieldAdapter p) = true ->
      truthy (popupContent (FormFieldAdapter p)) = true)
  /\ (forall (defaultValue : PropV) (fieldProps : gmap string PropV),
        FormField_props p defaultValue fieldProps !! "error"
        = Some (default (PVal (JBool (truthy (errorMessage p))))
                        (fieldProps !! "error"))).
Proof.
  split; [| split].
  - pose proof (AdapterFacts.selected_truthy p) as Ht.
    rewrite AdapterFacts.errorMessage_selected in *.
    destruct (selected p); [left; reflexivity | right | right];
      apply Ht; discriminate.
  - cbn. unfold showErrorPopup. intros H.
    apply andb_true_iff in H as [H _]. exact H.
  - intros defaultValue fieldProps. unfold FormField_props.
    rewrite lookup_union, lookup_insert_ne, lookup_insert_eq by done.
    destruct (fieldProps !! "error"); reflexivity.
Qed.

(** X3: while a submission is in flight the message is [null] or the local
    error, never taken from the submit error; the wrapped control is
    disabled whatever [input] and the other props carry, and so is the
    [Form.Field] unless [fieldProps] carries a [disabled] of its own. *)
Theorem while_submitting (p : Props) :
  submitting (meta p) = true ->
  (errorMessage p = JNull
   \/ (touched (meta p) = true /\ truthy (error (meta p)) = true
       /\ (dirty (meta p) = true \/ required p = true)
       /\ errorMessage p = error (meta p)))
  /\ (forall (input props : gmap string PropV)
             (componentLabel placeholder : PropV),
        Component_props p input props componentLabel placeholder
          !! "disabled" = Some (Passed (PVal (JBool true))))
  /\ (forall (defaultValue : PropV) (fieldProps : gmap string PropV),
        FormField_props p defaultValue fieldProps !! "disabled"
        = Some (default (PVal (JBool true)) (fieldProps !! "disabled"))).
Proof.
  intros Hs. split; [| split].
  - assert (Es : submitErrorEligible p = false).
    { unfold submitErrorEligible. rewrite Hs. cbn. apply andb_false_r. }
    unfold errorMessage. rewrite Es.
    destruct (localErrorEligible p) eqn:El; [| auto].
    apply AdapterFacts.localErrorEligible_true in El as (? & ? & ?).
    destruct (hideValidationError p); cbn; auto 10.
  - intros. unfold Component_props.
    rewrite lookup_insert_eq, Hs, orb_true_r. reflexivity.
  - intros defaultValue fieldProps. unfold FormField_props.
    rewrite lookup_union, !lookup_insert_ne, lookup_insert_eq by done.
    rewrite Hs, orb_true_r.
    destruct (fieldProps !! "disabled"); reflexivity.
Qed.

(** X4: a field with neither a local error nor a submit error has no
    message and no popup, whatever the other flags, and its [Form.Field]
    is flagged only if [fieldProps] says so. *)
Theorem clean_field (p : Props) :
  truthy (error (meta p)) = false ->
  truthy (submitError (meta p)) = false ->
  errorMessage p = JNull
  /\ popupOpen (FormFieldAdapter p) = false
  /\ (forall (defaultValue : PropV) (fieldProps : gmap string PropV),
        FormField_props p defaultValue fieldProps !! "error"
        = Some (default (PVal (JBool false)) (fieldProps !! "error"))).
Proof.
  intros He Hs.
  assert (Hnull : errorMessage p = JNull).
  { unfold errorMessage, localErrorEligible, submitErrorEligible.
    rewrite He, Hs, andb_false_r. reflexivity. }
  split; [exact Hnull | split].
  - cbn. unfold showErrorPopup. rewrite Hnull. reflexivity.
  - intros defaultValue fieldProps. unfold FormField_props.
    rewrite lookup_union, lookup_insert_ne, lookup_insert_eq by done.
    rewrite Hnull. cbn.
    destruct (fieldProps !! "error"); reflexivity.
Qed.

Lemma local_error_selected_iff_witness :
  errorMessage untouched_required = error (meta untouched_required)
  /\ truthy (errorMessage untouched_required) = true
  <->
  touched (meta untouched_required) = true
  /\ truthy (error (meta untouched_required)) = true
  /\ (dirty (meta untouched_required) = true
      \/ required untouched_required = true)
  /\ hideValidationError untouched_required = false.
Proof.
  apply (local_error_selected_iff untouched_required). discriminate.
Defined.

Lemma while_submitting_witness :
  (errorMessage AdapterSamples.invalid_submitting = JNull
   \/ (touched (meta AdapterSamples.invalid_submitting) = true
       /\ truthy (error (meta AdapterSamples.invalid_submitting)) = true
       /\ (dirty (meta AdapterSamples.invalid_submitting) = true
           \/ required AdapterSamples.invalid_submitting = true)
       /\ errorMessage AdapterSamples.invalid_submitting
          = error (meta AdapterSamples.invalid_submitting)))
  /\ (forall (input props : gmap string PropV)
             (componentLabel placeholder : PropV),
        Component_props AdapterSamples.invalid_submitting input props
          componentLabel placeholder
          !! "disabled" = Some (Passed (PVal (JBool true))))
  /\ (forall (defaultValue : PropV) (fieldProps : gmap string PropV),
        FormField_props AdapterSamples.invalid_submitting defaultValue
          fieldProps !! "disabled"
        = Some (default (PVal (JBool true)) (fieldProps !! "disabled"))).
Proof.
  apply (while_submitting AdapterSamples.invalid_submitting). reflexivity.
Defined.

Lemma clean_field_witness :
  errorMessage AdapterSamples.valid_edited = JNull
  /\ popupOpen (FormFieldAdapter AdapterSamples.valid_edited) = false
  /\ (forall (defaultValue : PropV) (fieldProps : gmap string PropV),
        FormField_props AdapterSamples.valid_edited defaultValue fieldProps
          !! "error"
        = Some (default (PVal (JBool false)) (fieldProps !! "error"))).
Proof.
  apply (clean_field AdapterSamples.valid_edited); reflexivity.
Defined.

End AdapterMore.

(** ** The file-type dialog *)

Module FileTypesFacts.
Import Wrapper FileTypes.

Section Dialog.
Variable translate : string -> string.
Variable validators_required : Validator.
Variables parsers_number parsers_nullIfEmpty formatters_trim : PropV.
Local Abbreviation FileTypeModal :=
  (FileTypeModal translate validators_required
     parsers_number parsers_nullIfEmpty formatters_trim).

(** X19: the submit button of the dialog submits the dialog's form.  While
    the form is submitting the dialog cannot be closed (no close icon, no
    closing on a click outside, Cancel disabled) and the submit button is
    disabled and loading; otherwise all three ways to close it are
    open. *)
Theorem dialog_locked_while_submitting (st : SubmitButton.FormState) :
  let dialog := FileTypeModal st in
  SubmitButton.form (submitButton dialog) = Some (formId dialog)
  /\ (SubmitButton.submitting st = true ->
      closeIcon dialog = false /\ closeOnDimmerClick dialog = false
      /\ cancelDisabled dialog = true
      /\ SubmitButton.disabled (submitButton dialog) = true
      /\ SubmitButton.loading (submitButton dialog) = true)
  /\ (SubmitButton.submitting st = false ->
      closeIcon dialog = true /\ closeOnDimmerClick dialog = true
      /\ cancelDisabled dialog = false
      /\ SubmitButton.loading (submitButton dialog) = false).
Proof.
  cbn. split; [reflexivity |].
  split; intros ->; cbn; rewrite ?orb_true_r; auto.
Qed.

(** X20: the name field of the dialog is a required text input: its
    [Field] validates with [validators.required], is marked required, is
    trimmed on blur, has no parser, and renders an [Input] through
    [FormFieldAdapter] under the name ["name"]. *)
Theorem dialog_name_field (st : SubmitButton.FormState) :
  let field := nameField (FileTypeModal st) in
  prop field "validate" = PFun validators_required
  /\ field !! "required" = Some (PVal (JBool true))
  /\ field !! "format" = Some formatters_trim
  /\ field !! "formatOnBlur" = Some (PVal (JBool true))
  /\ field !! "parse" = None
  /\ field !! "name" = Some (PVal (JStr "name"))
  /\ field !! "label" = Some (PVal (JStr (translate "Name")))
  /\ field !! "type" = Some (PVal (JStr "text"))
  /\ field !! "component" = Some (PComponent "FormFieldAdapter")
  /\ field !! "as" = Some (PComponent "Input").
Proof.
  cbn zeta. repeat split; vm_compute; reflexivity.
Qed.

End Dialog.
End FileTypesFacts.

(** ** More on the page bootstrap *)

Module BootstrapMore.
Import Bootstrap.

Section Handler.
Context {Num : Type}.
Variable parseInt : option string -> Num.
Local Abbreviation handler := (handler parseInt).

(** The two ways the handler can run. *)
Lemma handler_cases (document : Document) :
  match querySelector document "#editing-filetypes" with
  | Some element =>
      handler document =
        (Fulfilled JUndefined,
         [LocateElement; ReadEventId; NullGuard;
          Mount (parseInt (dataset element !! "eventId")) element])
  | None =>
      handler document
      = (Rejected "TypeError", [LocateElement; ReadEventId])
  end.
Proof.
  unfold Bootstrap.handler, handlerBody, readEventId.
  destruct (querySelector document "#editing-filetypes"); reflexivity.
Qed.

(** X21: the handler never returns [null]: whenever the guard is reached
    the element is there, so the guard's [return null] is never taken and
    the mount follows. *)
Theorem guard_never_returns (document : Document) :
  (handler document).1 <> Fulfilled JNull
  /\ (guardExecuted (handler document).2 = true ->
      exists eventId container,
        last (handler document).2 = Some (Mount eventId container)).
Proof.
  pose proof (handler_cases document) as Hrun.
  destruct (querySelector document "#editing-filetypes") as [el |];
    rewrite Hrun; cbn; split; try discriminate.
  intros _. eauto.
Qed.

(** X22: the interface is mounted exactly when the element is on the page,
    into that element and with what [parseInt] makes of its
    [data-event-id]; an element without the attribute is mounted all the
    same, with what [parseInt] makes of [undefined]. *)
Theorem mounts_iff_present (document : Document) :
  (forall eventId container,
     Mount eventId container ∈ (handler document).2 <->
     querySelector document "#editing-filetypes" = Some container
     /\ eventId = parseInt (dataset container !! "eventId"))
  /\ (forall container,
        querySelector document "#editing-filetypes" = Some container ->
        dataset container !! "eventId" = None ->
        Mount (parseInt None) container ∈ (handler document).2).
Proof.
  pose proof (handler_cases document) as Hrun.
  destruct (querySelector document "#editing-filetypes") as [el |];
    rewrite Hrun; cbn; split.
  - intros eventId container. rewrite !elem_of_cons, elem_of_nil. split.
    + intros [[=] | [[=] | [[=] | [[= -> ->] | []]]]]. auto.
    + intros ([= ->] & ->). auto 10.
  - intros container [= ->] Hnone. rewrite Hnone.
    rewrite !elem_of_cons. auto 10.
  - intros eventId container. rewrite !elem_of_cons, elem_of_nil. split.
    + intros [[=] | [[=] | []]].
    + intros ([=] & _).
  - intros container [=].
Qed.

End Handler.

End BootstrapMore.

(** ** More on change notification *)

Module NotifyFacts.
Import Wrapper.

Section AnyListener.
Context {Value : Type}.
Variable isEqual : Value -> Value -> bool.
Variable sameValue : Value -> Value -> bool.

(** Whatever the listener reports and whenever, the logged calls join
    values that are not deeply equal, and there is at most one per
    update. *)
Lemma OnChange_log (updates : list Value) :
  forall (previous : Value) (calls : list (Value * Value)),
    Forall (fun step => isEqual step.1 step.2 = false) calls ->
    let calls' :=
      OnChange sameValue (notify isEqual logCall) previous updates calls in
    Forall (fun step => isEqual step.1 step.2 = false) calls'
    /\ (length calls' <= length calls + length updates)%nat.
Proof.
  induction updates as [| value later IH]; intros previous calls Hcalls;
    cbn zeta.
  - cbn. split; [exact Hcalls | lia].
  - cbn [OnChange length]. destruct (negb (sameValue value previous)).
    + destruct (isEqual value previous) eqn:Heq.
      * replace (notify isEqual logCall value previous calls) with calls
          by (unfold notify; rewrite Heq; reflexivity).
        destruct (IH value calls Hcalls) as [H1 H2].
        split; [exact H1 | lia].
      * replace (notify isEqual logCall value previous calls)
          with (logCall value previous calls)
          by (unfold notify; rewrite Heq; reflexivity).
        assert (Hnew : Forall (fun step => isEqual step.1 step.2 = false)
                         (logCall value previous calls)).
        { unfold logCall. apply Forall_app. split; [exact Hcalls |].
          apply Forall_singleton. exact Heq. }
        destruct (IH value _ Hnew) as [H1 H2].
        split; [exact H1 |].
        assert (Hlen : length (logCall value previous calls)
                       = S (length calls))
          by (unfold logCall; rewrite length_app; cbn; lia).
        rewrite Hlen in H2. lia.
    + destruct (IH previous calls Hcalls) as [H1 H2].
      split; [exact H1 | lia].
Qed.

End AnyListener.

(** X5: whatever test the listener uses to skip updates, [onChange] is
    never invoked for two values that are deeply equal, and it is invoked
    at most once per update. *)
Theorem onChange_never_on_equal
    (Value : Type) (isEqual sameValue : Value -> Value -> bool)
    (initial : Value) (updates : list Value) :
  let calls := subscribe isEqual sameValue (Some logCall) initial updates [] in
  Forall (fun step => isEqual step.1 step.2 = false) calls
  /\ (length calls <= length updates)%nat.
Proof.
  cbn zeta. unfold subscribe.
  apply (OnChange_log isEqual sameValue updates initial []).
  constructor.
Qed.

End NotifyFacts.
